(** * The image question-answering page: [src/routes/+page.svelte]

    A shallow embedding of the page's script block: the image preparer
    [resizeImage] and the submission controller [submitForm], together with
    the page state they read and write.

    Conventions.
    - Pixel dimensions are JavaScript numbers holding integers
      ([img.width], [img.height] are [unsigned long] in the DOM); they are
      embedded as [Z].
    - [(a * 800) / b] is a division of two integers and [Math.round] rounds
      half-way cases towards +infinity.  Both are embedded over the exact
      rationals [Q].  On the operands the script produces this agrees with
      the IEEE-754 evaluation: the quotient is at most 800, every half
      integer below 2^52 is a double, and a quotient [n/d] that is not a
      half integer is at least [1/(2d)] away from one, far more than the
      rounding error of one division, so the double quotient lies on the
      same side of the rounding boundary as the exact one.
    - A promise is embedded by the way it ends up: fulfilled, rejected or
      pending for ever.  An [async] function is embedded by its suspension
      points: one step function per resumption. *)

From Stdlib Require Import ZArith QArith Qround Qabs Lia Lqa List.
From Stdlib Require SpecFloat.
From stdpp Require Import base strings pretty gmap.
Import ListNotations.

Local Open Scope Z_scope.

(** ** Numbers *)

Module JS.

(** [a / b] on two integer-valued numbers (exact quotient). *)
Definition div (a b : Z) : Q := (inject_Z a / inject_Z b)%Q.

(** [Math.round(x)]: the integer nearest to [x], ties towards +infinity,
    that is [floor (x + 1/2)]. *)
Definition Math_round (x : Q) : Z := Qfloor (x + (1 # 2))%Q.

End JS.

(** ** Image preparer *)

Definition MAX_WIDTH : Z := 800.
Definition MAX_HEIGHT : Z := 800.

(** The body of [img.onload] between [let width = img.width] and the
    assignments to [canvas.width] / [canvas.height]: the pair
    [(width, height)] after the two nested conditionals. *)
Definition target_size (img_width img_height : Z) : Z * Z :=
  let width := img_width in
  let height := img_height in
  if Z.gtb width height then
    if Z.gtb width MAX_WIDTH then
      let height := JS.Math_round (JS.div (height * MAX_WIDTH) width) in
      let width := MAX_WIDTH in
      (width, height)
    else (width, height)
  else
    if Z.gtb height MAX_HEIGHT then
      let width := JS.Math_round (JS.div (width * MAX_HEIGHT) height) in
      let height := MAX_HEIGHT in
      (width, height)
    else (width, height).

(** ** Promises *)

(** How a promise settles. *)
Inductive Settled (A : Type) : Type :=
  | Fulfilled (a : A)
  | Rejected (reason : string).
Arguments Fulfilled {A} a.
Arguments Rejected {A} reason.

(** What a caller can ever observe of a promise: its settlement, or
    [None] when it stays pending for ever. *)
Definition Promise (A : Type) : Type := option (Settled A).

(** ** Files, canvases and the browser *)

Record Blob : Type := mkBlob {
  blob_type : string;
  blob_bits : list Byte.byte
}.

Record File : Type := mkFile {
  name : string;
  type : string;
  bits : list Byte.byte
}.

(** [new File([blob], fileName, { type })]. *)
Definition new_File (blob : Blob) (fileName : string) (ty : string) : File :=
  {| name := fileName; type := ty; bits := blob_bits blob |}.

(** One [ctx.drawImage(img, dx, dy, dw, dh)] call. *)
Record DrawCall : Type := mkDraw {
  source : File;
  dx : Z; dy : Z; dw : Z; dh : Z
}.

Record Canvas : Type := mkCanvas {
  canvas_width : Z;
  canvas_height : Z;
  drawn : list DrawCall
}.

(** The parts of the platform [resizeImage] calls into.
    - [load file]: the intrinsic size [(img.width, img.height)] with which
      the [load] event of an image whose [src] is the object URL of [file]
      fires, or [None] when it never fires (the file does not decode; only
      [onload] is installed).
    - [getContext c]: whether [canvas.getContext('2d')] returns a context
      (it returns [null] otherwise).
    - [toBlob c ty]: the blob handed to the callback of
      [canvas.toBlob(callback, ty)], or [None] for [null]. *)
Record Browser : Type := mkBrowser {
  load : File -> option (Z * Z);
  getContext : Canvas -> bool;
  toBlob : Canvas -> string -> option Blob
}.

(** The canvas as it is when [canvas.toBlob] is called, or [None] when the
    handler does not get that far: [onload] never runs, or [ctx] is [null]
    and [ctx.drawImage] throws inside the event handler. *)
Definition prepared_canvas (b : Browser) (file : File) : option Canvas :=
  match load b file with
  | None => None
  | Some (img_width, img_height) =>
      let '(width, height) := target_size img_width img_height in
      let canvas :=
        {| canvas_width := width; canvas_height := height; drawn := [] |} in
      if getContext b canvas then
        Some {| canvas_width := width; canvas_height := height;
                drawn := [mkDraw file 0 0 width height] |}
      else None
  end.

(** [resizeImage(file)].  The executor receives [resolve] only; the single
    call of [resolve] sits in the [toBlob] callback under [if (blob)]. *)
Definition resizeImage (b : Browser) (file : File) : Promise File :=
  match prepared_canvas b file with
  | None => None
  | Some canvas =>
      match toBlob b canvas (type file) with
      | Some blob => Some (Fulfilled (new_File blob (name file) (type file)))
      | None => None
      end
  end.

(** ** Values read from a response *)

(** The result of parsing a JSON text, plus [undefined].  A number is the
    double [JSON.parse] produces. *)
#[local] Set Warnings "-register-all".
Inductive Value : Type :=
  | VUndefined
  | VNull
  | VBool (b : bool)
  | VNum (x : SpecFloat.spec_float)
  | VStr (s : string)
  | VArr (items : list Value)
  | VObj (props : gmap string Value).
#[local] Set Warnings "register-all".

(** [v.description].  Reading a property of [null] or [undefined] throws
    a [TypeError] ([None]); an object yields its own property or
    [undefined]; no primitive wrapper and no array has a property of that
    name. *)
Definition read_description (v : Value) : option Value :=
  match v with
  | VUndefined | VNull => None
  | VObj props => Some (default VUndefined (props !! "description"%string))
  | VBool _ | VNum _ | VStr _ | VArr _ => Some VUndefined
  end.

(** Truthiness, as [{#if description}] tests it. *)
Definition truthy (v : Value) : bool :=
  match v with
  | VUndefined | VNull => false
  | VBool b => b
  | VNum (SpecFloat.S754_zero _) | VNum SpecFloat.S754_nan => false
  | VNum _ => true
  | VStr s => negb (String.eqb s EmptyString)
  | VArr _ | VObj _ => true
  end.

(** A response as [submitForm] uses it: [body] is the value
    [response.json()] fulfils with, or [None] when it rejects (the body is
    not a JSON text).  [status] is carried along; the script never reads
    it. *)
Record Response : Type := mkResponse {
  status : Z;
  body : option Value
}.

Definition json (response : Response) : Settled Value :=
  match body response with
  | Some v => Fulfilled v
  | None => Rejected "SyntaxError"
  end.

(** ** Page state *)

(** The script's top-level [let] variables.  [description] is declared
    [string | null] but is assigned [result.description] unchecked, so it
    holds whatever value the response carried. *)
Record State : Type := mkState {
  image : option File;
  imageUrl : option string;
  question : string;
  isDragging : bool;
  description : Value;
  isLoading : bool
}.

Definition initial : State :=
  {| image := None; imageUrl := None; question := EmptyString;
     isDragging := false; description := VNull; isLoading := false |}.

Definition set_description (v : Value) (s : State) : State :=
  {| image := image s; imageUrl := imageUrl s; question := question s;
     isDragging := isDragging s; description := v; isLoading := isLoading s |}.

Definition set_isLoading (l : bool) (s : State) : State :=
  {| image := image s; imageUrl := imageUrl s; question := question s;
     isDragging := isDragging s; description := description s;
     isLoading := l |}.

(** The markup below the submit button:
    [{#if isLoading}<div class="loading-indicator">...</div>{/if}] and
    [{#if description}<div class="description">{description}</div>{/if}].
    [answer_block s] is the value interpolated into the answer block, or
    [None] when the block is not rendered. *)
Definition loading_indicator (s : State) : bool := isLoading s.

Definition answer_block (s : State) : option Value :=
  if truthy (description s) then Some (description s) else None.

(** ** Submission controller *)

(** A [FormData] entry: a file part or a text part. *)
Inductive FormEntry : Type :=
  | FilePart (f : File)
  | TextPart (s : string).

Definition FormData : Type := list (string * FormEntry).

(** [formData.append(key, image)]: a value that is not a blob is appended
    as its string conversion. *)
Definition append_image (key : string) (img : option File) (fd : FormData)
  : FormData :=
  fd ++ [(key, match img with
               | Some f => FilePart f
               | None => TextPart "null"
               end)].

Definition append_text (key : string) (txt : string) (fd : FormData)
  : FormData :=
  fd ++ [(key, TextPart txt)].

(** What [submitForm] does to the world outside the page state. *)
Inductive Effect : Type :=
  | Alert (message : string)
  | Fetch (url : string) (method : string) (payload : FormData)
  | ConsoleError (message : string).

Definition is_fetch (e : Effect) : bool :=
  match e with Fetch _ _ _ => true | _ => false end.

Definition is_alert (e : Effect) : bool :=
  match e with Alert _ => true | _ => false end.

Definition VALIDATION_MESSAGE : string :=
  "Please upload an image and ask a question.".

Definition ERROR_MESSAGE : string :=
  "An error occurred while processing your request.".

(** Truthiness of the two operands of [!image || !question]. *)
Definition truthy_file (f : option File) : bool :=
  match f with Some _ => true | None => false end.

Definition truthy_string (s : string) : bool :=
  negb (String.eqb s EmptyString).

(** Where one invocation of [submitForm] stands. *)
Inductive Point : Type :=
  | Entry
  | AwaitFetch
  | AwaitJson (response : Response)
  | Returned.

(** What makes it run on: the call itself, the settlement of the promise
    returned by [fetch], the settlement of the promise returned by
    [response.json()]. *)
Inductive Event : Type :=
  | Invoke
  | FetchSettled (outcome : Settled Response)
  | JsonSettled.

(** [catch (error) { console.error(...); description = '...'; }] *)
Definition catch_block (s : State) : State * list Effect :=
  (set_description (VStr ERROR_MESSAGE) s,
   [ConsoleError "Error submitting form:"]).

(** [finally { isLoading = false; }] *)
Definition finally_block (s : State) : State := set_isLoading false s.

(** The [try] body threw: [catch], then [finally], then return. *)
Definition thrown (s : State) : Point * State * list Effect :=
  let '(s, out) := catch_block s in
  (Returned, finally_block s, out).

(** One run of [submitForm] from a suspension point to the next.  [None]:
    the event does not belong to the point. *)
Definition step (p : Point) (e : Event) (s : State)
  : option (Point * State * list Effect) :=
  match p, e with
  | Entry, Invoke =>
      if negb (truthy_file (image s)) || negb (truthy_string (question s))
      then Some (Returned, s, [Alert VALIDATION_MESSAGE])
      else
        let s := set_isLoading true s in
        let formData := [] in
        let formData := append_image "image" (image s) formData in
        let formData := append_text "question" (question s) formData in
        Some (AwaitFetch, s, [Fetch "/api/ask" "POST" formData])
  | AwaitFetch, FetchSettled (Rejected _) => Some (thrown s)
  | AwaitFetch, FetchSettled (Fulfilled response) =>
      Some (AwaitJson response, s, [])
  | AwaitJson response, JsonSettled =>
      match json response with
      | Rejected _ => Some (thrown s)
      | Fulfilled result =>
          match read_description result with
          | None => Some (thrown s)
          | Some d => Some (Returned, finally_block (set_description d s), [])
          end
      end
  | _, _ => None
  end.

(** A whole run: the events delivered in order, effects accumulated. *)
Fixpoint run (events : list Event) (p : Point) (s : State)
  : option (Point * State * list Effect) :=
  match events with
  | [] => Some (p, s, [])
  | e :: rest =>
      match step p e s with
      | None => None
      | Some (p', s', out) =>
          match run rest p' s' with
          | None => None
          | Some (p'', s'', out') => Some (p'', s'', out ++ out')
          end
      end
  end.

(** The event the environment delivers next to an invocation standing at
    [p], when the network answers the request with [net] ([None]: the
    request never settles).  A returned invocation receives nothing. *)
Definition next_event (net : Promise Response) (p : Point) : option Event :=
  match p with
  | Entry => Some Invoke
  | AwaitFetch => option_map FetchSettled net
  | AwaitJson _ => Some JsonSettled
  | Returned => None
  end.

(** Run an invocation at [p] for at most [fuel] resumptions. *)
Fixpoint drive (fuel : nat) (net : Promise Response) (p : Point) (s : State)
  : Point * State * list Effect :=
  match fuel with
  | O => (p, s, [])
  | S fuel =>
      match next_event net p with
      | None => (p, s, [])
      | Some e =>
          match step p e s with
          | None => (p, s, [])
          | Some (p', s', out) =>
              let '(p'', s'', out') := drive fuel net p' s' in
              (p'', s'', out ++ out')
          end
      end
  end.

(** [submitForm()] against a network that answers [net], run as far as it
    gets: the function has three suspension-free stretches. *)
Definition submitForm (net : Promise Response) (s : State)
  : Point * State * list Effect :=
  drive 3 net Entry s.

Definition point_of (r : Point * State * list Effect) : Point := r.1.1.
Definition state_of (r : Point * State * list Effect) : State := r.1.2.
Definition effects_of (r : Point * State * list Effect) : list Effect := r.2.

(** The [try] body throws on [net]: [fetch] rejects, [response.json()]
    rejects, or [result] has no properties to read. *)
Definition throws (net : Settled Response) : bool :=
  match net with
  | Rejected _ => true
  | Fulfilled response =>
      match body response with
      | None => true
      | Some result =>
          match read_description result with
          | None => true
          | Some _ => false
          end
      end
  end.

(** The request [submitForm] issues from state [s]. *)
Definition request (s : State) : Effect :=
  Fetch "/api/ask" "POST"
    (append_text "question" (question s) (append_image "image" (image s) [])).

(** The validation at the head of [submitForm]. *)
Definition validated (s : State) : bool :=
  truthy_file (image s) && truthy_string (question s).

(** ** Sample data *)

Definition cat_png : File :=
  {| name := "cat.png"; type := "image/png";
     bits := [Byte.x89; Byte.x50; Byte.x4e; Byte.x47] |}.

Definition notes_txt : File :=
  {| name := "notes.txt"; type := "text/plain"; bits := [] |}.

(** A browser that decodes PNG files (all of them 1600 by 1200), always
    has a 2d context, and encodes every canvas that has pixels. *)
Definition test_browser : Browser :=
  {| load := fun f =>
       if String.eqb (type f) "image/png" then Some (1600, 1200) else None;
     getContext := fun _ => true;
     toBlob := fun c ty =>
       if (0 <? canvas_width c) && (0 <? canvas_height c)
       then Some {| blob_type := ty; blob_bits := [Byte.x89; Byte.x50] |}
       else None |}.

Definition cat_png_resized : File :=
  {| name := "cat.png"; type := "image/png"; bits := [Byte.x89; Byte.x50] |}.

Definition a_cat : Response :=
  {| status := 200;
     body := Some (VObj {[ "description"%string := VStr "a cat" ]}) |}.

Definition server_error : Response :=
  {| status := 500;
     body := Some (VObj {[ "error"%string := VStr "model unavailable" ]}) |}.

Definition ready : State :=
  {| image := Some cat_png; imageUrl := Some "blob:preview";
     question := "What is this?"; isDragging := false;
     description := VNull; isLoading := false |}.

Definition no_question : State :=
  {| image := Some cat_png; imageUrl := Some "blob:preview";
     question := EmptyString; isDragging := false;
     description := VNull; isLoading := false |}.

(** A gateway error page: status 502, body not JSON. *)
Definition not_json : Response := {| status := 502; body := None |}.

(** ** Selecting an image *)

Definition set_image (f : option File) (s : State) : State :=
  {| image := f; imageUrl := imageUrl s; question := question s;
     isDragging := isDragging s; description := description s;
     isLoading := isLoading s |}.

Definition set_imageUrl (u : option string) (s : State) : State :=
  {| image := image s; imageUrl := u; question := question s;
     isDragging := isDragging s; description := description s;
     isLoading := isLoading s |}.

Definition set_question (q : string) (s : State) : State :=
  {| image := image s; imageUrl := imageUrl s; question := q;
     isDragging := isDragging s; description := description s;
     isLoading := isLoading s |}.

Definition set_isDragging (d : bool) (s : State) : State :=
  {| image := image s; imageUrl := imageUrl s; question := question s;
     isDragging := d; description := description s;
     isLoading := isLoading s |}.

(** The document's blob URL store: the URLs handed out so far, oldest
    first, each with the blob it names.  The script has no call of
    [URL.revokeObjectURL]; entries are only ever added. *)
Definition UrlStore : Type := list (string * File).

(** [URL.createObjectURL(blob)]; [mint n] is the URL the browser hands out
    at its [n]-th registration. *)
Definition createObjectURL (mint : nat -> string) (urls : UrlStore)
    (blob : File) : string * UrlStore :=
  let url := mint (length urls) in
  (url, urls ++ [(url, blob)]).

(** The page variables together with the blob URL store. *)
Record World : Type := mkWorld {
  page : State;
  urls : UrlStore
}.

(** What a handler does to the event and the document. *)
Inductive DomEffect : Type :=
  | PreventDefault
  | ClickFileInput.

(** [handleFileUpload] up to its [await].  [files] is [target.files]
    ([None] for [null]).  The result names the file whose preparation is
    awaited, if any.  Calling [resizeImage(image)] runs the promise
    executor at once, and with it [img.src = URL.createObjectURL(file)]. *)
Definition handleFileUpload_begin (mint : nat -> string)
    (files : option (list File)) (w : World) : option File * World :=
  match files with
  | Some (file0 :: _) =>
      let page := set_image (Some file0) (page w) in
      let '(_, urls) := createObjectURL mint (urls w) file0 in
      (Some file0, {| page := page; urls := urls |})
  | Some [] | None => (None, w)
  end.

(** [handleFileUpload] after its [await], once [resizeImage] has fulfilled
    with [resized]. *)
Definition handleFileUpload_resume (mint : nat -> string) (resized : File)
    (w : World) : World :=
  let page := set_image (Some resized) (page w) in
  let '(url, urls) := createObjectURL mint (urls w) resized in
  {| page := set_imageUrl (Some url) page; urls := urls |}.

(** [handleFileUpload(event)] run as far as it gets when no other handler
    runs in between: a preparation that stays pending (or rejects) leaves
    the handler at its [await] for ever. *)
Definition handleFileUpload (b : Browser) (mint : nat -> string)
    (files : option (list File)) (w : World) : World :=
  match handleFileUpload_begin mint files w with
  | (Some file, w) =>
      match resizeImage b file with
      | Some (Fulfilled resized) => handleFileUpload_resume mint resized w
      | Some (Rejected _) | None => w
      end
  | (None, w) => w
  end.

(** [handleDrop] up to its [await].  [dataTransfer] is the file list of
    [event.dataTransfer] ([None] when [event.dataTransfer] is [null]). *)
Definition handleDrop_begin (mint : nat -> string)
    (dataTransfer : option (list File)) (w : World)
  : option File * World * list DomEffect :=
  let page := set_isDragging false (page w) in
  match dataTransfer with
  | Some (file0 :: _) =>
      let page := set_image (Some file0) page in
      let '(_, urls) := createObjectURL mint (urls w) file0 in
      (Some file0, {| page := page; urls := urls |}, [PreventDefault])
  | Some [] | None =>
      (None, {| page := page; urls := urls w |}, [PreventDefault])
  end.

(** [handleDrop] after its [await]. *)
Definition handleDrop_resume (mint : nat -> string) (resized : File)
    (w : World) : World :=
  let page := set_image (Some resized) (page w) in
  let '(url, urls) := createObjectURL mint (urls w) resized in
  {| page := set_imageUrl (Some url) page; urls := urls |}.

(** [handleDrop(event)] run as far as it gets. *)
Definition handleDrop (b : Browser) (mint : nat -> string)
    (dataTransfer : option (list File)) (w : World)
  : World * list DomEffect :=
  match handleDrop_begin mint dataTransfer w with
  | (Some file, w, out) =>
      match resizeImage b file with
      | Some (Fulfilled resized) => (handleDrop_resume mint resized w, out)
      | Some (Rejected _) | None => (w, out)
      end
  | (None, w, out) => (w, out)
  end.

(** [handleDragOver(event)] and [handleDragLeave()]. *)
Definition handleDragOver (s : State) : State * list DomEffect :=
  (set_isDragging true s, [PreventDefault]).

Definition handleDragLeave (s : State) : State := set_isDragging false s.

(** [handleKeyDown(event)], given [event.key]. *)
Definition handleKeyDown (key : string) : list DomEffect :=
  if String.eqb key "Enter" || String.eqb key " "
  then [PreventDefault; ClickFileInput]
  else [].

(** [bind:value={question}]: the text input writes what it holds into
    [question]. *)
Definition input_question (value : string) (s : State) : State :=
  set_question value s.

(** What happens over the upload area, one gesture at a time. *)
Inductive Gesture : Type :=
  | DragOver
  | DragLeave
  | Drop (dataTransfer : option (list File)).

Definition gesture (b : Browser) (mint : nat -> string) (w : World)
    (g : Gesture) : World :=
  match g with
  | DragOver => {| page := (handleDragOver (page w)).1; urls := urls w |}
  | DragLeave => {| page := handleDragLeave (page w); urls := urls w |}
  | Drop dataTransfer => (handleDrop b mint dataTransfer w).1
  end.

Definition is_drag_over (g : Gesture) : bool :=
  match g with DragOver => true | _ => false end.

(** ** Several submissions in flight *)

(** The submit button stays enabled while a request is out, so invocations
    of [submitForm] overlap.  They share the page state; each has its own
    suspension point.  A schedule names, event by event, the invocation
    that runs next. *)
Fixpoint run_pool (schedule : list (nat * Event)) (pool : list Point)
    (s : State) : option (list Point * State * list Effect) :=
  match schedule with
  | [] => Some (pool, s, [])
  | (i, e) :: rest =>
      match pool !! i with
      | None => None
      | Some p =>
          match step p e s with
          | None => None
          | Some (p', s', out) =>
              match run_pool rest (<[i := p']> pool) s' with
              | None => None
              | Some (pool', s'', out') => Some (pool', s'', out ++ out')
              end
          end
      end
  end.

(** The events with which invocation [i] receives the network answer
    [net] and runs to its end. *)
Definition settle (i : nat) (net : Settled Response) : list (nat * Event) :=
  match net with
  | Rejected reason => [(i, FetchSettled (Rejected reason))]
  | Fulfilled response =>
      [(i, FetchSettled (Fulfilled response)); (i, JsonSettled)]
  end.

(** ** More sample data *)

(** A browser that numbers its blob URLs. *)
Definition blob_url (n : nat) : string := "blob:" +:+ pretty n.

Definition fresh_world : World := {| page := initial; urls := [] |}.

(** A browser like [test_browser] that finds every image 10000 by 1. *)
Definition thin_browser : Browser :=
  {| load := fun _ => Some (10000, 1);
     getContext := getContext test_browser;
     toBlob := toBlob test_browser |}.

Definition no_description : Response :=
  {| status := 200;
     body := Some (VObj {[ "answer"%string := VStr "a cat" ]}) |}.

(** * Properties *)

(** ** Concrete scenarios *)

Example target_size_1600_1200 : target_size 1600 1200 = (800, 600).
Proof. reflexivity. Qed.

Example target_size_1200_1600 : target_size 1200 1600 = (600, 800).
Proof. reflexivity. Qed.

Example target_size_500_500 : target_size 500 500 = (500, 500).
Proof. reflexivity. Qed.

Example target_size_801_3 : target_size 801 3 = (800, 3).
Proof. reflexivity. Qed.

Example target_size_thin : target_size 10000 1 = (800, 0).
Proof. reflexivity. Qed.

Example submit_a_cat :
  submitForm (Some (Fulfilled a_cat)) ready
  = (Returned,
     set_isLoading false
       (set_description (VStr "a cat") (set_isLoading true ready)),
     [Fetch "/api/ask" "POST"
        [("image"%string, FilePart cat_png);
         ("question"%string, TextPart "What is this?")]]).
Proof. vm_compute. reflexivity. Qed.

Example submit_server_error :
  submitForm (Some (Fulfilled server_error)) ready
  = (Returned,
     set_isLoading false
       (set_description VUndefined (set_isLoading true ready)),
     [request ready]).
Proof. vm_compute. reflexivity. Qed.

Example submit_network_error :
  submitForm (Some (Rejected "NetworkError")) ready
  = (Returned,
     set_isLoading false
       (set_description (VStr ERROR_MESSAGE) (set_isLoading true ready)),
     [request ready; ConsoleError "Error submitting form:"]).
Proof. vm_compute. reflexivity. Qed.

Example resize_thin_image_hangs :
  resizeImage
    {| load := fun _ => Some (10000, 1); getContext := getContext test_browser;
       toBlob := toBlob test_browser |} cat_png = None.
Proof. reflexivity. Qed.


(** ** Rounding *)

Module JSFacts.
Import JS.

(** Rounding a quotient of integers is one integer division. *)
Lemma Math_round_div (n d : Z) :
  0 < d -> Math_round (div n d) = (2 * n + d) / (2 * d).
Proof.
  intros Hd. unfold Math_round, div.
  rewrite Zdiv_Qdiv. apply Qfloor_comp.
  rewrite !inject_Z_plus, !inject_Z_mult.
  assert (~ (inject_Z d == 0)%Q) as Hnz.
  { intros H. change 0%Q with (inject_Z 0) in H.
    rewrite inject_Z_injective in H. lia. }
  field. exact Hnz.
Qed.

(** [Math.round] returns an integer nearest to its argument. *)
Lemma Math_round_nearest (x : Q) :
  (Qabs (x - inject_Z (Math_round x)) <= 1 # 2)%Q.
Proof.
  unfold Math_round.
  pose proof (Qfloor_le (x + (1 # 2))) as Hlo.
  pose proof (Qlt_floor (x + (1 # 2))) as Hhi.
  rewrite inject_Z_plus in Hhi. change (inject_Z 1) with 1%Q in Hhi.
  set (k := inject_Z (Qfloor (x + (1 # 2)))) in *. clearbody k.
  apply Qabs_Qle_condition. split; lra.
Qed.

(** A quotient that is at most [k] rounds to at most [k]. *)
Lemma Math_round_div_le (n d k : Z) :
  0 < d -> n <= k * d -> Math_round (div n d) <= k.
Proof.
  intros Hd Hn. rewrite Math_round_div by exact Hd.
  apply Z.lt_succ_r, Z.div_lt_upper_bound; lia.
Qed.

(** A whole quotient rounds to itself. *)
Lemma Math_round_div_exact (d k : Z) :
  0 < d -> Math_round (div (d * k) d) = k.
Proof.
  intros Hd. rewrite Math_round_div by exact Hd.
  symmetry. apply (Z.div_unique_pos _ _ k d); lia.
Qed.

End JSFacts.

(** ** The target size *)

Section TargetSize.
Import JS JSFacts.

(** The four arms of the nested conditionals. *)
Lemma target_size_wide (w h : Z) :
  w > h -> w > MAX_WIDTH ->
  target_size w h = (MAX_WIDTH, Math_round (div (h * MAX_WIDTH) w)).
Proof.
  intros Hwh Hw. unfold target_size.
  destruct (Z.gtb_spec w h); [|lia].
  destruct (Z.gtb_spec w MAX_WIDTH); [reflexivity|lia].
Qed.

Lemma target_size_tall (w h : Z) :
  w <= h -> h > MAX_HEIGHT ->
  target_size w h = (Math_round (div (w * MAX_HEIGHT) h), MAX_HEIGHT).
Proof.
  intros Hwh Hh. unfold target_size.
  destruct (Z.gtb_spec w h); [lia|].
  destruct (Z.gtb_spec h MAX_HEIGHT); [reflexivity|lia].
Qed.

Lemma target_size_small (w h : Z) :
  w <= MAX_WIDTH -> h <= MAX_HEIGHT -> target_size w h = (w, h).
Proof.
  intros Hw Hh. unfold target_size.
  destruct (Z.gtb_spec w h).
  - destruct (Z.gtb_spec w MAX_WIDTH); [lia|reflexivity].
  - destruct (Z.gtb_spec h MAX_HEIGHT); [lia|reflexivity].
Qed.

Lemma target_size_le (w h : Z) :
  (target_size w h).1 <= 800 /\ (target_size w h).2 <= 800.
Proof.
  unfold target_size, MAX_WIDTH, MAX_HEIGHT.
  destruct (Z.gtb_spec w h) as [Hwh|Hwh].
  - destruct (Z.gtb_spec w 800) as [Hw|Hw]; simpl; split; try lia.
    apply Math_round_div_le; lia.
  - destruct (Z.gtb_spec h 800) as [Hh|Hh]; simpl; split; try lia.
    apply Math_round_div_le; lia.
Qed.

(** The canvas that is encoded has the target size of the decoded image,
    and exactly one draw covering it. *)
Lemma prepared_canvas_size (b : Browser) (file : File) (c : Canvas) :
  prepared_canvas b file = Some c ->
  exists w h, load b file = Some (w, h)
    /\ (canvas_width c, canvas_height c) = target_size w h
    /\ drawn c = [mkDraw file 0 0 (canvas_width c) (canvas_height c)].
Proof.
  unfold prepared_canvas. destruct (load b file) as [[w h]|]; [|discriminate].
  destruct (target_size w h) as [w' h'] eqn:E.
  destruct (getContext b _); [|discriminate].
  intros [= <-]. exists w, h. simpl. auto.
Qed.

End TargetSize.

Section Preparer.
Import JS JSFacts.

(** C1. The target size follows the case analysis: an image with
    width >= height and width > 800 gets width 800 and height
    round(height * 800 / width); an image with height > width and
    height > 800 gets height 800 and width round(width * 800 / height). *)
Theorem target_size_case_analysis (w h : Z) :
  (w >= h -> w > 800 ->
     target_size w h = (800, Math_round (div (h * 800) w)))
  /\ (h > w -> h > 800 ->
     target_size w h = (Math_round (div (w * 800) h), 800)).
Proof.
  split.
  - intros Hwh Hw.
    destruct (Z.eq_dec w h) as [->|Hne].
    + (* square: the [else] arm runs and both quotients are exactly 800 *)
      rewrite target_size_tall by (unfold MAX_HEIGHT; lia).
      unfold MAX_HEIGHT. rewrite Math_round_div_exact by lia. reflexivity.
    + apply target_size_wide; unfold MAX_WIDTH; lia.
  - intros Hwh Hh. apply target_size_tall; unfold MAX_HEIGHT; lia.
Qed.

Lemma target_size_case_analysis_witness :
  (1600 >= 1200 /\ 1600 > 800 /\ target_size 1600 1200 = (800, 600))
  /\ (1600 > 1200 /\ 1600 > 800 /\ target_size 1200 1600 = (600, 800))
  /\ (900 >= 900 /\ 900 > 800 /\ target_size 900 900 = (800, 800)).
Proof.
  split; [|split]; (split; [lia|split; [lia|]]).
  - rewrite (proj1 (target_size_case_analysis 1600 1200)) by lia.
    reflexivity.
  - rewrite (proj2 (target_size_case_analysis 1200 1600)) by lia.
    reflexivity.
  - rewrite (proj1 (target_size_case_analysis 900 900)) by lia.
    reflexivity.
Defined.

(** C2. An image with both dimensions at most 800 keeps its dimensions
    (no upscaling): the target size is the input size, so is the size of
    the canvas that is encoded, and feeding the size back any number of
    times leaves it unchanged. *)
Theorem bounded_size_unchanged (w h : Z) :
  w <= 800 -> h <= 800 ->
  target_size w h = (w, h)
  /\ (forall n : nat,
        Nat.iter n (fun d : Z * Z => target_size d.1 d.2) (w, h) = (w, h))
  /\ (forall (b : Browser) (file : File) (c : Canvas),
        load b file = Some (w, h) -> prepared_canvas b file = Some c ->
        canvas_width c = w /\ canvas_height c = h).
Proof.
  intros Hw Hh.
  assert (target_size w h = (w, h)) as Hfix
    by (apply target_size_small; assumption).
  split; [exact Hfix|split].
  - induction n as [|n IH]; simpl; [reflexivity|].
    rewrite IH. exact Hfix.
  - intros b file c Hload Hc.
    destruct (prepared_canvas_size b file c Hc) as (w' & h' & Hl & Hsz & _).
    rewrite Hload in Hl. injection Hl as <- <-.
    rewrite Hfix in Hsz. injection Hsz as -> ->. auto.
Qed.

Lemma bounded_size_unchanged_witness :
  500 <= 800
  /\ target_size 500 500 = (500, 500)
  /\ Nat.iter 7 (fun d : Z * Z => target_size d.1 d.2) (500, 500) = (500, 500).
Proof.
  split; [lia|]. split.
  - apply (bounded_size_unchanged 500 500); lia.
  - apply (bounded_size_unchanged 500 500); lia.
Defined.

(** C9. Whatever the size of the source image, both dimensions of the
    prepared image are at most 800; in particular
    round(smaller * 800 / larger) never exceeds 800. *)
Theorem prepared_size_bounded :
  (forall w h : Z,
     (target_size w h).1 <= 800 /\ (target_size w h).2 <= 800)
  /\ (forall (b : Browser) (file : File) (c : Canvas),
        prepared_canvas b file = Some c ->
        canvas_width c <= 800 /\ canvas_height c <= 800)
  /\ (forall smaller larger : Z,
        smaller <= larger -> 0 < larger ->
        Math_round (div (smaller * 800) larger) <= 800).
Proof.
  split; [exact target_size_le|split].
  - intros b file c Hc.
    destruct (prepared_canvas_size b file c Hc) as (w & h & _ & Hsz & _).
    pose proof (target_size_le w h) as Hle. rewrite <- Hsz in Hle.
    exact Hle.
  - intros smaller larger Hle Hpos. apply Math_round_div_le; lia.
Qed.

Lemma prepared_size_bounded_witness :
  prepared_canvas test_browser cat_png
    = Some (mkCanvas 800 600 [mkDraw cat_png 0 0 800 600])
  /\ 800 <= 800 /\ 600 <= 800
  /\ 1599 <= 1600 /\ 0 < 1600
  /\ Math_round (div (1599 * 800) 1600) <= 800.
Proof.
  split; [reflexivity|].
  destruct prepared_size_bounded as (_ & Hcanvas & Hround).
  split; [|split; [|split; [lia|split; [lia|]]]].
  - apply (Hcanvas test_browser cat_png
             (mkCanvas 800 600 [mkDraw cat_png 0 0 800 600])).
    reflexivity.
  - apply (Hcanvas test_browser cat_png
             (mkCanvas 800 600 [mkDraw cat_png 0 0 800 600])).
    reflexivity.
  - apply (Hround 1599 1600); lia.
Defined.

(** C7. Whenever preparation resolves, the resolved file has the media
    type and the file name of the input file. *)
Theorem resolved_file_type_and_name (b : Browser) (file out : File) :
  resizeImage b file = Some (Fulfilled out) ->
  type out = type file /\ name out = name file.
Proof.
  unfold resizeImage.
  destruct (prepared_canvas b file) as [c|]; [|discriminate].
  destruct (toBlob b c (type file)) as [blob|]; [|discriminate].
  intros [= <-]. split; reflexivity.
Qed.

Lemma resolved_file_type_and_name_witness :
  resizeImage test_browser cat_png = Some (Fulfilled cat_png_resized)
  /\ type cat_png_resized = "image/png"%string
  /\ name cat_png_resized = "cat.png"%string.
Proof.
  split; [reflexivity|].
  apply (resolved_file_type_and_name test_browser cat_png cat_png_resized).
  reflexivity.
Defined.

(** C8. The promise returned by the preparer is never rejected: it is
    fulfilled with a prepared file or stays pending for ever; on an input
    that does not decode it stays pending. *)
Theorem resizeImage_fulfils_or_hangs (b : Browser) (file : File) :
  (resizeImage b file = None
   \/ exists out : File, resizeImage b file = Some (Fulfilled out))
  /\ (forall reason : string, resizeImage b file <> Some (Rejected reason))
  /\ (load b file = None -> resizeImage b file = None).
Proof.
  unfold resizeImage, prepared_canvas.
  destruct (load b file) as [[w h]|].
  - destruct (target_size w h) as [w' h'].
    destruct (getContext b _).
    + destruct (toBlob b _ (type file)) as [blob|].
      * split; [right; eexists; reflexivity|]. split; [|discriminate].
        intros reason; discriminate.
      * split; [left; reflexivity|]. split; [|discriminate].
        intros reason; discriminate.
    + split; [left; reflexivity|]. split; [|discriminate].
      intros reason; discriminate.
  - split; [left; reflexivity|]. split; [|reflexivity].
    intros reason; discriminate.
Qed.

Lemma resizeImage_fulfils_or_hangs_witness :
  load test_browser notes_txt = None
  /\ resizeImage test_browser notes_txt = None.
Proof.
  split; [reflexivity|].
  apply (resizeImage_fulfils_or_hangs test_browser notes_txt). reflexivity.
Defined.

End Preparer.

(** ** One resumption *)

Section Steps.

Lemma validated_false_iff (s : State) :
  validated s = false <-> image s = None \/ question s = EmptyString.
Proof.
  unfold validated, truthy_file, truthy_string.
  destruct (image s) as [f|]; simpl.
  - destruct (String.eqb_spec (question s) EmptyString) as [->|Hq]; simpl.
    + split; auto.
    + split; [discriminate|]. intros [H|H]; [discriminate|contradiction].
  - split; auto.
Qed.

Lemma step_Entry_invalid (s : State) :
  validated s = false ->
  step Entry Invoke s = Some (Returned, s, [Alert VALIDATION_MESSAGE]).
Proof.
  unfold validated, step. intros Hv.
  destruct (truthy_file (image s)), (truthy_string (question s));
    try discriminate; reflexivity.
Qed.

Lemma step_Entry_valid (s : State) :
  validated s = true ->
  step Entry Invoke s = Some (AwaitFetch, set_isLoading true s, [request s]).
Proof.
  unfold validated, step. intros Hv.
  destruct (truthy_file (image s)), (truthy_string (question s));
    try discriminate; reflexivity.
Qed.

(** A returned invocation takes no further step, and no step leads back
    to the entry. *)
Lemma step_Returned (e : Event) (s : State) : step Returned e s = None.
Proof. destruct e; reflexivity. Qed.

Lemma step_not_Entry (p : Point) (e : Event) (s s' : State)
    (out : list Effect) :
  step p e s <> Some (Entry, s', out).
Proof.
  destruct p, e as [|[r|r]|]; simpl; try discriminate.
  - destruct (_ || _); discriminate.
  - unfold json. destruct (body response) as [v|]; [|discriminate].
    destruct (read_description v); discriminate.
Qed.

(** Every way out of a suspended invocation goes through [finally]. *)
Lemma step_returns_idle (p : Point) (e : Event) (s s' : State)
    (out : list Effect) :
  p <> Entry -> step p e s = Some (Returned, s', out) -> isLoading s' = false.
Proof.
  intros Hp. destruct p; [contradiction| | |].
  - destruct e as [|[r|r]|]; simpl; try discriminate.
    intros [= <- _]. reflexivity.
  - destruct e; simpl; try discriminate.
    unfold json. destruct (body response) as [v|].
    + destruct (read_description v); intros [= <- _]; reflexivity.
    + intros [= <- _]. reflexivity.
  - rewrite step_Returned. discriminate.
Qed.

(** No step writes [image], [imageUrl], [question] or [isDragging]. *)
Lemma step_frame (p p' : Point) (e : Event) (s s' : State)
    (out : list Effect) :
  step p e s = Some (p', s', out) ->
  image s' = image s /\ imageUrl s' = imageUrl s
  /\ question s' = question s /\ isDragging s' = isDragging s.
Proof.
  destruct p, e as [|[r|r]|]; simpl; try discriminate.
  - destruct (_ || _); intros [= _ <- _]; auto.
  - intros [= _ <- _]; auto.
  - intros [= _ <- _]; auto.
  - unfold json. destruct (body response) as [v|].
    + destruct (read_description v); intros [= _ <- _]; auto.
    + intros [= _ <- _]; auto.
Qed.

End Steps.

(** ** Whole runs *)

Section Runs.

Lemma run_Returned (events : list Event) (s : State)
    (r : Point * State * list Effect) :
  run events Returned s = Some r -> events = [] /\ r = (Returned, s, []).
Proof.
  destruct events as [|e rest]; simpl.
  - intros [= <-]. auto.
  - destruct e; discriminate.
Qed.

Lemma run_suspended_idle (events : list Event) :
  forall (p : Point) (s s' : State) (out : list Effect),
    p <> Entry -> p <> Returned ->
    run events p s = Some (Returned, s', out) -> isLoading s' = false.
Proof.
  induction events as [|e rest IH]; intros p s s' out Hentry Hret; simpl.
  - intros [= -> _ _]. contradiction.
  - destruct (step p e s) as [[[p1 s1] o1]|] eqn:Hstep; [|discriminate].
    destruct (run rest p1 s1) as [[[p2 s2] o2]|] eqn:Hrun; [|discriminate].
    intros [= -> -> _].
    destruct p1.
    + exfalso. exact (step_not_Entry _ _ _ _ _ Hstep).
    + apply (IH AwaitFetch s1 s' o2); [discriminate|discriminate|exact Hrun].
    + apply (IH (AwaitJson response) s1 s' o2);
        [discriminate|discriminate|exact Hrun].
    + apply run_Returned in Hrun as [_ [= -> _]].
      exact (step_returns_idle p e s s1 o1 Hentry Hstep).
Qed.

Lemma run_frame (events : list Event) :
  forall (p p' : Point) (s s' : State) (out : list Effect),
    run events p s = Some (p', s', out) ->
    image s' = image s /\ imageUrl s' = imageUrl s
    /\ question s' = question s /\ isDragging s' = isDragging s.
Proof.
  induction events as [|e rest IH]; intros p p' s s' out; simpl.
  - intros [= _ <- _]. auto.
  - destruct (step p e s) as [[[p1 s1] o1]|] eqn:Hstep; [|discriminate].
    destruct (run rest p1 s1) as [[[p2 s2] o2]|] eqn:Hrun; [|discriminate].
    intros [= _ <- _].
    destruct (step_frame _ _ _ _ _ _ Hstep) as (A1 & A2 & A3 & A4).
    destruct (IH _ _ _ _ _ Hrun) as (B1 & B2 & B3 & B4).
    repeat split; congruence.
Qed.

(** What [drive] computes is a run. *)
Lemma drive_is_run (net : Promise Response) (fuel : nat) :
  forall (p : Point) (s : State),
    exists events : list Event, run events p s = Some (drive fuel net p s).
Proof.
  induction fuel as [|fuel IH]; intros p s; simpl.
  - exists []. reflexivity.
  - destruct (next_event net p) as [e|]; [|exists []; reflexivity].
    destruct (step p e s) as [[[p1 s1] o1]|] eqn:Hstep;
      [|exists []; reflexivity].
    destruct (IH p1 s1) as [events Hrun].
    destruct (drive fuel net p1 s1) as [[p2 s2] o2].
    exists (e :: events). simpl. rewrite Hstep, Hrun. reflexivity.
Qed.

(** The four ways [submitForm] goes. *)
Lemma submitForm_invalid (net : Promise Response) (s : State) :
  validated s = false ->
  submitForm net s = (Returned, s, [Alert VALIDATION_MESSAGE]).
Proof.
  intros Hv. unfold submitForm. cbn [drive next_event option_map].
  rewrite (step_Entry_invalid s Hv). reflexivity.
Qed.

Lemma submitForm_pending (s : State) :
  validated s = true ->
  submitForm None s = (AwaitFetch, set_isLoading true s, [request s]).
Proof.
  intros Hv. unfold submitForm. cbn [drive next_event option_map].
  rewrite (step_Entry_valid s Hv). reflexivity.
Qed.

Lemma submitForm_thrown (net : Settled Response) (s : State) :
  validated s = true -> throws net = true ->
  submitForm (Some net) s
  = (Returned,
     finally_block
       (set_description (VStr ERROR_MESSAGE) (set_isLoading true s)),
     [request s; ConsoleError "Error submitting form:"]).
Proof.
  intros Hv Ht. unfold submitForm. cbn [drive next_event option_map].
  rewrite (step_Entry_valid s Hv).
  destruct net as [response|reason]; simpl in *; [|reflexivity].
  unfold json. destruct (body response) as [v|]; [|reflexivity].
  destruct (read_description v); [discriminate|reflexivity].
Qed.

Lemma submitForm_answered (response : Response) (result d : Value)
    (s : State) :
  validated s = true ->
  body response = Some result -> read_description result = Some d ->
  submitForm (Some (Fulfilled response)) s
  = (Returned, finally_block (set_description d (set_isLoading true s)),
     [request s]).
Proof.
  intros Hv Hb Hd. unfold submitForm. cbn [drive next_event option_map].
  rewrite (step_Entry_valid s Hv). simpl.
  unfold json. rewrite Hb, Hd. reflexivity.
Qed.

End Runs.

(** ** The submission controller *)

Section Controller.

(** C4. Invoked with no image or with an empty question, [submitForm]
    shows the validation message, issues no request and leaves every state
    variable as it was. *)
Theorem validation_failure_changes_nothing (s : State) :
  image s = None \/ question s = EmptyString ->
  step Entry Invoke s = Some (Returned, s, [Alert VALIDATION_MESSAGE])
  /\ forall net : Promise Response,
       submitForm net s = (Returned, s, [Alert VALIDATION_MESSAGE])
       /\ state_of (submitForm net s) = s
       /\ filter is_alert (effects_of (submitForm net s))
          = [Alert VALIDATION_MESSAGE]
       /\ filter is_fetch (effects_of (submitForm net s)) = [].
Proof.
  intros Hmissing. apply validated_false_iff in Hmissing.
  split; [exact (step_Entry_invalid s Hmissing)|].
  intros net. rewrite (submitForm_invalid net s Hmissing).
  repeat split; reflexivity.
Qed.

Lemma validation_failure_changes_nothing_witness :
  question no_question = EmptyString
  /\ submitForm (Some (Fulfilled a_cat)) no_question
     = (Returned, no_question, [Alert VALIDATION_MESSAGE]).
Proof.
  split; [reflexivity|].
  apply (validation_failure_changes_nothing no_question).
  right. reflexivity.
Defined.

(** C5. The loading flag goes idle, loading, idle: an invocation that
    passes validation sets it and suspends on the request; every return
    from a suspended invocation, by the success path or by [catch], goes
    through [finally] and clears it, whatever happened to the state in
    between; so no run that passed validation ends with the flag set.
    While the request is unsettled the invocation has not returned. *)
Theorem loading_flag_idle_loading_idle :
  (forall s : State,
     validated s = true ->
     step Entry Invoke s
     = Some (AwaitFetch, set_isLoading true s, [request s])
     /\ isLoading (set_isLoading true s) = true)
  /\ (forall (p : Point) (e : Event) (s s' : State) (out : list Effect),
        p <> Entry -> step p e s = Some (Returned, s', out) ->
        isLoading s' = false)
  /\ (forall (events : list Event) (s s' : State) (out : list Effect),
        validated s = true ->
        run events Entry s = Some (Returned, s', out) ->
        isLoading s' = false)
  /\ (forall (net : Settled Response) (s : State),
        validated s = true ->
        point_of (submitForm (Some net) s) = Returned
        /\ isLoading (state_of (submitForm (Some net) s)) = false)
  /\ (forall s : State,
        validated s = true ->
        point_of (submitForm None s) = AwaitFetch
        /\ isLoading (state_of (submitForm None s)) = true).
Proof.
  split; [|split; [|split; [|split]]].
  - intros s Hv. split; [exact (step_Entry_valid s Hv)|reflexivity].
  - exact step_returns_idle.
  - intros events s s' out Hv.
    destruct events as [|e rest]; [discriminate|].
    destruct e; try discriminate.
    cbn [run]. rewrite (step_Entry_valid s Hv).
    destruct (run rest AwaitFetch (set_isLoading true s))
      as [[[p2 s2] o2]|] eqn:Hrun; [|discriminate].
    intros [= -> -> _].
    apply (run_suspended_idle rest AwaitFetch (set_isLoading true s) s' o2);
      [discriminate|discriminate|exact Hrun].
  - intros net s Hv.
    destruct (throws net) eqn:Ht.
    + rewrite (submitForm_thrown net s Hv Ht). split; reflexivity.
    + destruct net as [response|reason]; [|discriminate].
      simpl in Ht. destruct (body response) as [v|] eqn:Hb; [|discriminate].
      destruct (read_description v) as [d|] eqn:Hd; [|discriminate].
      rewrite (submitForm_answered response v d s Hv Hb Hd).
      split; reflexivity.
  - intros s Hv. rewrite (submitForm_pending s Hv). split; reflexivity.
Qed.

Lemma loading_flag_idle_loading_idle_witness :
  validated ready = true
  /\ isLoading ready = false
  /\ isLoading (set_isLoading true ready) = true
  /\ isLoading (state_of (submitForm (Some (Rejected "NetworkError")) ready))
     = false.
Proof.
  destruct loading_flag_idle_loading_idle as (Henter & _ & _ & Hexit & _).
  split; [reflexivity|]. split; [reflexivity|]. split.
  - apply (Henter ready). reflexivity.
  - apply (Hexit (Rejected "NetworkError") ready). reflexivity.
Defined.

(** C6. With an image and a question present, when the response body
    parses to an object that has a [description] property, the answer text
    ends up being exactly the value of that property, and that value is
    what the answer block shows (the block is rendered when the value is
    truthy, so for every non-empty string). *)
Theorem answer_is_description_field (s : State) (response : Response)
    (props : gmap string Value) (v : Value) :
  validated s = true ->
  body response = Some (VObj props) ->
  props !! "description"%string = Some v ->
  point_of (submitForm (Some (Fulfilled response)) s) = Returned
  /\ description (state_of (submitForm (Some (Fulfilled response)) s)) = v
  /\ answer_block (state_of (submitForm (Some (Fulfilled response)) s))
     = (if truthy v then Some v else None).
Proof.
  intros Hv Hbody Hfield.
  assert (read_description (VObj props) = Some v) as Hread
    by (simpl; rewrite Hfield; reflexivity).
  rewrite (submitForm_answered response (VObj props) v s Hv Hbody Hread).
  repeat split; reflexivity.
Qed.

Lemma answer_is_description_field_witness :
  validated ready = true
  /\ body a_cat = Some (VObj {[ "description"%string := VStr "a cat" ]})
  /\ description (state_of (submitForm (Some (Fulfilled a_cat)) ready))
     = VStr "a cat"
  /\ answer_block (state_of (submitForm (Some (Fulfilled a_cat)) ready))
     = Some (VStr "a cat").
Proof.
  split; [reflexivity|]. split; [reflexivity|].
  apply (answer_is_description_field ready a_cat
           {[ "description"%string := VStr "a cat" ]} (VStr "a cat"));
    reflexivity.
Defined.

(** C10. [submitForm] writes [isLoading] and [description] only: no
    resumption, no run and no invocation changes [image], [imageUrl] or
    [question] (nor [isDragging]). *)
Theorem submit_writes_only_loading_and_answer :
  (forall (p p' : Point) (e : Event) (s s' : State) (out : list Effect),
     step p e s = Some (p', s', out) ->
     image s' = image s /\ imageUrl s' = imageUrl s
     /\ question s' = question s /\ isDragging s' = isDragging s)
  /\ (forall (events : list Event) (p p' : Point) (s s' : State)
             (out : list Effect),
        run events p s = Some (p', s', out) ->
        image s' = image s /\ imageUrl s' = imageUrl s
        /\ question s' = question s /\ isDragging s' = isDragging s)
  /\ (forall (net : Promise Response) (s : State),
        image (state_of (submitForm net s)) = image s
        /\ imageUrl (state_of (submitForm net s)) = imageUrl s
        /\ question (state_of (submitForm net s)) = question s
        /\ isDragging (state_of (submitForm net s)) = isDragging s).
Proof.
  split; [exact step_frame|split].
  - intros events p p' s s' out. exact (run_frame events p p' s s' out).
  - intros net s. unfold submitForm.
    destruct (drive_is_run net 3 Entry s) as [events Hrun].
    destruct (drive 3 net Entry s) as [[p' s'] out].
    exact (run_frame events Entry p' s s' out Hrun).
Qed.

Lemma submit_writes_only_loading_and_answer_witness :
  step AwaitFetch (FetchSettled (Rejected "NetworkError")) ready
  = Some (thrown ready)
  /\ image (thrown ready).1.2 = Some cat_png
  /\ question (thrown ready).1.2 = "What is this?"%string.
Proof.
  destruct submit_writes_only_loading_and_answer as (Hstep & _ & _).
  split; [reflexivity|].
  destruct (Hstep AwaitFetch Returned
              (FetchSettled (Rejected "NetworkError")) ready
              (thrown ready).1.2 (thrown ready).2 eq_refl)
    as (Himage & _ & Hquestion & _).
  split; [exact Himage|exact Hquestion].
Defined.

(** C3 as stated fails: a response with a non-success status whose body is
    JSON does not put the error text into the answer.  Status 500 with
    body [{"error": "model unavailable"}] leaves [undefined] there, and no
    answer block is rendered. *)
Lemma non_success_status_is_not_an_error :
  status server_error = 500
  /\ validated ready = true
  /\ description (state_of (submitForm (Some (Fulfilled server_error)) ready))
     = VUndefined
  /\ answer_block (state_of (submitForm (Some (Fulfilled server_error)) ready))
     = None
  /\ ~ (forall (s : State) (response : Response),
       validated s = true ->
       ~ (200 <= status response <= 299) ->
       description (state_of (submitForm (Some (Fulfilled response)) s))
       = VStr ERROR_MESSAGE).
Proof.
  split; [reflexivity|]. split; [reflexivity|].
  split; [vm_compute; reflexivity|]. split; [vm_compute; reflexivity|].
  intros Hclaim.
  assert (description
            (state_of (submitForm (Some (Fulfilled server_error)) ready))
          = VStr ERROR_MESSAGE) as Habsurd.
  { apply Hclaim; [reflexivity|]. unfold server_error; simpl. lia. }
  vm_compute in Habsurd. discriminate Habsurd.
Qed.

(** C3, amended.  When the [try] body throws, that is when [fetch] rejects
    (network error), when [response.json()] rejects (the body is not
    JSON) or when the body parses to [null], the answer text is set to the
    fixed error string, which the answer block shows, [isLoading] is
    cleared, and exactly one request has been issued.  The status code
    plays no part. *)
Theorem thrown_submit_shows_error_text (s : State) (net : Settled Response) :
  validated s = true -> throws net = true ->
  point_of (submitForm (Some net) s) = Returned
  /\ description (state_of (submitForm (Some net) s)) = VStr ERROR_MESSAGE
  /\ answer_block (state_of (submitForm (Some net) s))
     = Some (VStr ERROR_MESSAGE)
  /\ isLoading (state_of (submitForm (Some net) s)) = false
  /\ filter is_fetch (effects_of (submitForm (Some net) s)) = [request s].
Proof.
  intros Hv Ht. rewrite (submitForm_thrown net s Hv Ht).
  repeat split; reflexivity.
Qed.

Lemma thrown_submit_shows_error_text_witness :
  validated ready = true
  /\ throws (Fulfilled not_json) = true
  /\ description (state_of (submitForm (Some (Fulfilled not_json)) ready))
     = VStr "An error occurred while processing your request.".
Proof.
  split; [reflexivity|]. split; [reflexivity|].
  apply (thrown_submit_shows_error_text ready (Fulfilled not_json));
    reflexivity.
Defined.

End Controller.

(** * Further properties *)

(** ** The target size, beyond the bounding box *)

Section TargetSizeMore.
Import JS JSFacts.

Lemma Math_round_div_nonneg (n d : Z) :
  0 < d -> 0 <= n -> 0 <= Math_round (div n d).
Proof.
  intros Hd Hn. rewrite Math_round_div by exact Hd.
  apply Z.div_pos; lia.
Qed.

Lemma Math_round_div_zero_iff (n d : Z) :
  0 < d -> 0 <= n -> (Math_round (div n d) = 0 <-> 2 * n < d).
Proof.
  intros Hd Hn. rewrite Math_round_div by exact Hd.
  rewrite Z.div_small_iff by lia. lia.
Qed.

(** X1. Computing the target size of a target size changes nothing, for
    every input size. *)
Theorem target_size_idempotent (w h : Z) :
  target_size (target_size w h).1 (target_size w h).2 = target_size w h.
Proof.
  destruct (target_size_le w h) as [Hw Hh].
  rewrite target_size_small by (unfold MAX_WIDTH, MAX_HEIGHT; assumption).
  destruct (target_size w h); reflexivity.
Qed.

(** X2. On an image with non-negative dimensions no dimension grows and
    none becomes negative. *)
Theorem target_size_never_upscales (w h : Z) :
  0 <= w -> 0 <= h ->
  0 <= (target_size w h).1 <= w /\ 0 <= (target_size w h).2 <= h.
Proof.
  intros Hw Hh. unfold target_size, MAX_WIDTH, MAX_HEIGHT.
  destruct (Z.gtb_spec w h) as [Hwh|Hwh].
  - destruct (Z.gtb_spec w 800) as [Hbig|Hbig]; simpl; [|lia].
    split; [lia|]. split.
    + apply Math_round_div_nonneg; lia.
    + apply Math_round_div_le; nia.
  - destruct (Z.gtb_spec h 800) as [Hbig|Hbig]; simpl; [|lia].
    split; [|lia]. split.
    + apply Math_round_div_nonneg; lia.
    + apply Math_round_div_le; nia.
Qed.

Lemma target_size_never_upscales_witness :
  0 <= 1600 /\ 0 <= 1200
  /\ (target_size 1600 1200).1 <= 1600 /\ (target_size 1600 1200).2 <= 1200.
Proof.
  split; [lia|]. split; [lia|].
  pose proof (target_size_never_upscales 1600 1200) as H.
  split; apply H; lia.
Defined.

(** X3. The aspect ratio is kept to within half a pixel: when an image is
    scaled, the scaled side differs from the exact proportional length by
    at most 1/2. *)
Theorem target_size_half_pixel (w h : Z) :
  (w > h -> w > 800 ->
     (Qabs (div (h * 800) w - inject_Z (target_size w h).2) <= 1 # 2)%Q)
  /\ (w <= h -> h > 800 ->
     (Qabs (div (w * 800) h - inject_Z (target_size w h).1) <= 1 # 2)%Q).
Proof.
  split; intros Hwh Hbig.
  - rewrite target_size_wide by (unfold MAX_WIDTH; lia).
    apply Math_round_nearest.
  - rewrite target_size_tall by (unfold MAX_HEIGHT; lia).
    apply Math_round_nearest.
Qed.

Lemma target_size_half_pixel_witness :
  1000 > 333 /\ 1000 > 800
  /\ target_size 1000 333 = (800, 266)
  /\ (Qabs (div (333 * 800) 1000 - inject_Z 266) <= 1 # 2)%Q.
Proof.
  split; [lia|]. split; [lia|]. split; [reflexivity|].
  apply (proj1 (target_size_half_pixel 1000 333)); lia.
Defined.

(** X4. When an image exceeds the box, its longer side becomes exactly
    800. *)
Theorem target_size_longest_side (w h : Z) :
  Z.max w h > 800 ->
  Z.max (target_size w h).1 (target_size w h).2 = 800.
Proof.
  intros Hmax. unfold target_size, MAX_WIDTH, MAX_HEIGHT.
  destruct (Z.gtb_spec w h) as [Hwh|Hwh].
  - destruct (Z.gtb_spec w 800) as [Hbig|Hbig]; simpl; [|lia].
    assert (Math_round (div (h * 800) w) <= 800)
      by (apply Math_round_div_le; lia).
    lia.
  - destruct (Z.gtb_spec h 800) as [Hbig|Hbig]; simpl; [|lia].
    assert (Math_round (div (w * 800) h) <= 800)
      by (apply Math_round_div_le; lia).
    lia.
Qed.

Lemma target_size_longest_side_witness :
  Z.max 1200 1600 > 800
  /\ Z.max (target_size 1200 1600).1 (target_size 1200 1600).2 = 800.
Proof.
  split; [lia|]. apply (target_size_longest_side 1200 1600). lia.
Defined.

(** X5. The orientation never flips: an image at least as wide as tall
    stays so, and an image at least as tall as wide stays so. *)
Theorem target_size_keeps_orientation (w h : Z) :
  (h <= w -> (target_size w h).2 <= (target_size w h).1)
  /\ (w <= h -> (target_size w h).1 <= (target_size w h).2).
Proof.
  unfold target_size, MAX_WIDTH, MAX_HEIGHT.
  destruct (Z.gtb_spec w h) as [Hwh|Hwh].
  - destruct (Z.gtb_spec w 800) as [Hbig|Hbig]; simpl; [|lia].
    split; [intros _|lia]. apply Math_round_div_le; lia.
  - destruct (Z.gtb_spec h 800) as [Hbig|Hbig]; simpl; [|lia].
    split.
    + intros Hhw. assert (w = h) as -> by lia.
      rewrite (Z.mul_comm h 800), (Z.mul_comm 800 h).
      rewrite Math_round_div_exact by lia. lia.
    + intros _. apply Math_round_div_le; lia.
Qed.

Lemma target_size_keeps_orientation_witness :
  1600 <= 1601 /\ target_size 1601 1600 = (800, 800)
  /\ (target_size 1601 1600).2 <= (target_size 1601 1600).1.
Proof.
  split; [lia|]. split; [reflexivity|].
  apply (proj1 (target_size_keeps_orientation 1601 1600)). lia.
Defined.

Lemma target_size_zero_wide (w h : Z) :
  0 <= h -> h < w -> w > 800 ->
  ((target_size w h).2 = 0 <-> 1600 * h < w).
Proof.
  intros Hh Hwh Hbig.
  rewrite target_size_wide by (unfold MAX_WIDTH; lia).
  unfold MAX_WIDTH; simpl.
  rewrite Math_round_div_zero_iff by lia. lia.
Qed.

Lemma target_size_zero_tall (w h : Z) :
  0 <= w -> w <= h -> h > 800 ->
  ((target_size w h).1 = 0 <-> 1600 * w < h).
Proof.
  intros Hw Hwh Hbig.
  rewrite target_size_tall by (unfold MAX_HEIGHT; lia).
  unfold MAX_HEIGHT; simpl.
  rewrite Math_round_div_zero_iff by lia. lia.
Qed.

(** X6. A scaled side is rounded down to zero exactly when the image is
    more than 1600 times longer than it is across. *)
Theorem target_size_zero_side_iff (w h : Z) :
  (0 <= h -> h < w -> w > 800 ->
     ((target_size w h).2 = 0 <-> 1600 * h < w))
  /\ (0 <= w -> w <= h -> h > 800 ->
     ((target_size w h).1 = 0 <-> 1600 * w < h)).
Proof.
  split; [exact (target_size_zero_wide w h)|exact (target_size_zero_tall w h)].
Qed.

Lemma target_size_zero_side_iff_witness :
  0 <= 1 /\ 1 < 1601 /\ 1601 > 800
  /\ 1600 * 1 < 1601 /\ (target_size 1601 1).2 = 0.
Proof.
  split; [lia|]. split; [lia|]. split; [lia|]. split; [lia|].
  apply (proj1 (target_size_zero_side_iff 1601 1)); lia.
Defined.

End TargetSizeMore.

(** ** The preparer, beyond the claims *)

Section PreparerMore.

(** X7. In a browser that yields no blob for a canvas without pixels, an
    image that decodes but is more than 1600 times longer than it is
    across (and longer than 800) is never prepared: the promise stays
    pending. *)
Theorem resizeImage_degenerate_hangs (b : Browser) (file : File) (w h : Z) :
  load b file = Some (w, h) ->
  (forall (c : Canvas) (ty : string),
     canvas_width c = 0 \/ canvas_height c = 0 -> toBlob b c ty = None) ->
  (0 <= h /\ w > 800 /\ 1600 * h < w)
  \/ (0 <= w /\ h > 800 /\ 1600 * w < h) ->
  resizeImage b file = None.
Proof.
  intros Hload Hempty Hthin. unfold resizeImage.
  destruct (prepared_canvas b file) as [c|] eqn:Hc; [|reflexivity].
  destruct (prepared_canvas_size b file c Hc) as (w' & h' & Hl & Hsz & _).
  rewrite Hload in Hl. injection Hl as <- <-.
  rewrite Hempty; [reflexivity|].
  destruct Hthin as [(Hh & Hbig & Hratio)|(Hw & Hbig & Hratio)].
  - right.
    assert ((target_size w h).2 = 0) as Hzero
      by (apply (target_size_zero_wide w h); lia).
    rewrite <- Hsz in Hzero. exact Hzero.
  - left.
    assert ((target_size w h).1 = 0) as Hzero
      by (apply (target_size_zero_tall w h); lia).
    rewrite <- Hsz in Hzero. exact Hzero.
Qed.

Lemma resizeImage_degenerate_hangs_witness :
  load thin_browser cat_png = Some (10000, 1)
  /\ 1600 * 1 < 10000
  /\ resizeImage thin_browser cat_png = None.
Proof.
  split; [reflexivity|]. split; [lia|].
  apply (resizeImage_degenerate_hangs thin_browser cat_png 10000 1).
  - reflexivity.
  - intros c ty [H|H]; simpl; rewrite H; simpl.
    + reflexivity.
    + destruct (0 <? canvas_width c); reflexivity.
  - left. lia.
Defined.

Lemma resizeImage_fulfilled_inv (b : Browser) (file out : File) :
  resizeImage b file = Some (Fulfilled out) ->
  exists (w h : Z) (c : Canvas) (blob : Blob),
    load b file = Some (w, h)
    /\ getContext b (mkCanvas (canvas_width c) (canvas_height c) []) = true
    /\ (canvas_width c, canvas_height c) = target_size w h
    /\ drawn c = [mkDraw file 0 0 (canvas_width c) (canvas_height c)]
    /\ toBlob b c (type file) = Some blob
    /\ out = new_File blob (name file) (type file).
Proof.
  unfold resizeImage, prepared_canvas.
  destruct (load b file) as [[w h]|]; [|discriminate].
  destruct (target_size w h) as [w' h'] eqn:Hsz.
  destruct (getContext b _) eqn:Hctx; [|discriminate].
  destruct (toBlob b _ (type file)) as [blob|] eqn:Hblob; [|discriminate].
  intros [= <-].
  exists w, h, (mkCanvas w' h' [mkDraw file 0 0 w' h']), blob.
  simpl. repeat split; try reflexivity; try assumption.
  symmetry; exact Hsz.
Qed.

(** X8. A prepared file holds the bytes the encoder produced, not those
    of the input: whenever preparation resolves, the image decoded with
    some size, the canvas had the target size of that size and received
    one draw of the input covering it from the origin, the encoder was
    asked for the input's media type, and the resolved file consists of
    the encoder's blob. *)
Theorem resolved_file_is_encoded_canvas (b : Browser) (file out : File) :
  resizeImage b file = Some (Fulfilled out) ->
  exists (w h : Z) (c : Canvas) (blob : Blob),
    load b file = Some (w, h)
    /\ getContext b (mkCanvas (canvas_width c) (canvas_height c) []) = true
    /\ (canvas_width c, canvas_height c) = target_size w h
    /\ drawn c = [mkDraw file 0 0 (canvas_width c) (canvas_height c)]
    /\ toBlob b c (type file) = Some blob
    /\ bits out = blob_bits blob.
Proof.
  intros Hout.
  destruct (resizeImage_fulfilled_inv b file out Hout)
    as (w & h & c & blob & Hl & Hctx & Hsz & Hdraw & Hblob & ->).
  exists w, h, c, blob. repeat split; assumption || reflexivity.
Qed.

Lemma resolved_file_is_encoded_canvas_witness :
  resizeImage test_browser cat_png = Some (Fulfilled cat_png_resized)
  /\ exists (w h : Z) (c : Canvas) (blob : Blob),
       load test_browser cat_png = Some (w, h)
       /\ getContext test_browser
            (mkCanvas (canvas_width c) (canvas_height c) []) = true
       /\ (canvas_width c, canvas_height c) = target_size w h
       /\ drawn c = [mkDraw cat_png 0 0 (canvas_width c) (canvas_height c)]
       /\ toBlob test_browser c (type cat_png) = Some blob
       /\ bits cat_png_resized = blob_bits blob.
Proof.
  split; [reflexivity|].
  apply (resolved_file_is_encoded_canvas test_browser cat_png cat_png_resized).
  reflexivity.
Defined.

End PreparerMore.

(** ** The submission controller, beyond the claims *)

Section ControllerMore.

Lemma validated_inv (s : State) :
  validated s = true ->
  exists f : File, image s = Some f /\ question s <> EmptyString.
Proof.
  unfold validated, truthy_file, truthy_string.
  destruct (image s) as [f|]; [|discriminate]. simpl.
  destruct (String.eqb_spec (question s) EmptyString); [discriminate|].
  intros _. exists f. auto.
Qed.

(** The stretch of [try] that stores the answer, when nothing throws. *)
Lemma throws_false_inv (net : Settled Response) :
  throws net = false ->
  exists (response : Response) (result d : Value),
    net = Fulfilled response /\ body response = Some result
    /\ read_description result = Some d.
Proof.
  destruct net as [response|reason]; [|discriminate]. simpl.
  destruct (body response) as [result|] eqn:Hb; [|discriminate].
  destruct (read_description result) as [d|] eqn:Hd; [|discriminate].
  intros _. exists response, result, d. auto.
Qed.

(** X9. One invocation issues at most one request, and one exactly when
    validation passes; that request is a POST to /api/ask whose body has
    the part [image], holding the file in [image] (never the text
    [null]), followed by the part [question], holding the non-empty
    question. *)
Theorem submit_sends_one_well_formed_request (net : Promise Response)
    (s : State) :
  filter is_fetch (effects_of (submitForm net s))
  = (if validated s then [request s] else [])
  /\ (validated s = true ->
      exists f : File,
        image s = Some f /\ question s <> EmptyString
        /\ request s
           = Fetch "/api/ask" "POST"
               [("image"%string, FilePart f);
                ("question"%string, TextPart (question s))]).
Proof.
  split.
  - destruct (validated s) eqn:Hv.
    + destruct net as [net|].
      * destruct (throws net) eqn:Ht.
        -- rewrite (submitForm_thrown net s Hv Ht). reflexivity.
        -- destruct (throws_false_inv net Ht)
             as (response & result & d & -> & Hb & Hd).
           rewrite (submitForm_answered response result d s Hv Hb Hd).
           reflexivity.
      * rewrite (submitForm_pending s Hv). reflexivity.
    + rewrite (submitForm_invalid net s Hv). reflexivity.
  - intros Hv. destruct (validated_inv s Hv) as (f & Hf & Hq).
    exists f. split; [exact Hf|]. split; [exact Hq|].
    unfold request. rewrite Hf. reflexivity.
Qed.

Lemma submit_sends_one_well_formed_request_witness :
  validated ready = true
  /\ exists f : File,
       image ready = Some f /\ question ready <> EmptyString
       /\ request ready
          = Fetch "/api/ask" "POST"
              [("image"%string, FilePart f);
               ("question"%string, TextPart (question ready))].
Proof.
  split; [reflexivity|].
  apply (submit_sends_one_well_formed_request None ready). reflexivity.
Defined.

(** X10. The status code of a response has no influence: two responses
    with the same body lead to the same state and the same effects. *)
Theorem submit_ignores_status (r1 r2 : Response) (s : State) :
  body r1 = body r2 ->
  submitForm (Some (Fulfilled r1)) s = submitForm (Some (Fulfilled r2)) s.
Proof.
  intros Hbody. destruct (validated s) eqn:Hv.
  - unfold submitForm. cbn [drive next_event option_map].
    rewrite (step_Entry_valid s Hv). simpl. unfold json.
    rewrite Hbody. destruct (body r2) as [result|]; [|reflexivity].
    destruct (read_description result); reflexivity.
  - rewrite !(submitForm_invalid _ s Hv). reflexivity.
Qed.

Lemma submit_ignores_status_witness :
  body a_cat = body (mkResponse 503 (body a_cat))
  /\ submitForm (Some (Fulfilled a_cat)) ready
     = submitForm (Some (Fulfilled (mkResponse 503 (body a_cat)))) ready.
Proof.
  split; [reflexivity|].
  apply (submit_ignores_status a_cat (mkResponse 503 (body a_cat)) ready).
  reflexivity.
Defined.

(** X11. A body that parses to something other than [null] but carries no
    [description] (an object without that key, an array, a string, a
    number, a boolean) is not an error: nothing is logged, [description]
    becomes [undefined], so whatever answer was shown disappears. *)
Theorem missing_description_clears_answer (s : State) (response : Response)
    (result : Value) :
  validated s = true ->
  body response = Some result ->
  result <> VNull -> result <> VUndefined ->
  (forall props : gmap string Value,
     result = VObj props -> props !! "description"%string = None) ->
  submitForm (Some (Fulfilled response)) s
  = (Returned,
     finally_block (set_description VUndefined (set_isLoading true s)),
     [request s])
  /\ answer_block (state_of (submitForm (Some (Fulfilled response)) s))
     = None.
Proof.
  intros Hv Hbody Hnull Hundef Hkey.
  assert (read_description result = Some VUndefined) as Hread.
  { destruct result; simpl; try reflexivity; try contradiction.
    rewrite (Hkey props eq_refl). reflexivity. }
  rewrite (submitForm_answered response result VUndefined s Hv Hbody Hread).
  split; reflexivity.
Qed.

Lemma missing_description_clears_answer_witness :
  validated ready = true
  /\ description
       (state_of (submitForm (Some (Fulfilled no_description))
                    (set_description (VStr "a dog") ready)))
     = VUndefined.
Proof.
  split; [reflexivity|].
  destruct (missing_description_clears_answer
              (set_description (VStr "a dog") ready) no_description
              (VObj {[ "answer"%string := VStr "a cat" ]}))
    as [Hrun _].
  - reflexivity.
  - reflexivity.
  - discriminate.
  - discriminate.
  - intros props [= <-]. vm_compute. reflexivity.
  - rewrite Hrun. reflexivity.
Defined.

(** X12. The previous answer is neither cleared when the request goes out
    nor kept once it settles: while the request is pending [description]
    is what it was, and after it settles [description] does not depend on
    what it was. *)
Theorem answer_kept_in_flight_then_replaced (s : State) :
  validated s = true ->
  description (state_of (submitForm None s)) = description s
  /\ forall (net : Settled Response) (previous : Value),
       description
         (state_of (submitForm (Some net) (set_description previous s)))
       = description (state_of (submitForm (Some net) s)).
Proof.
  intros Hv. split.
  - rewrite (submitForm_pending s Hv). reflexivity.
  - intros net previous.
    assert (validated (set_description previous s) = true) as Hv'
      by exact Hv.
    destruct (throws net) eqn:Ht.
    + rewrite (submitForm_thrown net _ Hv' Ht).
      rewrite (submitForm_thrown net s Hv Ht). reflexivity.
    + destruct (throws_false_inv net Ht)
        as (response & result & d & -> & Hb & Hd).
      rewrite (submitForm_answered response result d _ Hv' Hb Hd).
      rewrite (submitForm_answered response result d s Hv Hb Hd).
      reflexivity.
Qed.

Lemma answer_kept_in_flight_then_replaced_witness :
  validated (set_description (VStr "a dog") ready) = true
  /\ description
       (state_of (submitForm None (set_description (VStr "a dog") ready)))
     = VStr "a dog".
Proof.
  split; [reflexivity|].
  apply (answer_kept_in_flight_then_replaced
           (set_description (VStr "a dog") ready)).
  reflexivity.
Defined.

(** X13. [console.error] is called exactly when the [try] body throws; a
    run in which nothing throws has the request as its only effect. *)
Theorem error_logged_iff_thrown (s : State) (net : Settled Response) :
  validated s = true ->
  (In (ConsoleError "Error submitting form:")
      (effects_of (submitForm (Some net) s))
   <-> throws net = true)
  /\ (throws net = false ->
      effects_of (submitForm (Some net) s) = [request s]).
Proof.
  intros Hv. destruct (throws net) eqn:Ht.
  - rewrite (submitForm_thrown net s Hv Ht). split; [|discriminate].
    split; [reflexivity|]. intros _. right. left. reflexivity.
  - destruct (throws_false_inv net Ht)
      as (response & result & d & -> & Hb & Hd).
    rewrite (submitForm_answered response result d s Hv Hb Hd).
    split; [|reflexivity]. split; [|discriminate].
    intros [H|[]]. unfold request in H. discriminate H.
Qed.

Lemma error_logged_iff_thrown_witness :
  validated ready = true
  /\ throws (Fulfilled server_error) = false
  /\ effects_of (submitForm (Some (Fulfilled server_error)) ready)
     = [request ready].
Proof.
  split; [reflexivity|]. split; [reflexivity|].
  apply (error_logged_iff_thrown ready (Fulfilled server_error));
    reflexivity.
Defined.

End ControllerMore.

(** ** Overlapping submissions *)

Section Overlap.

(** Open up a state that passes validation. *)
Ltac open_validated s Hv f q Hq :=
  let im := fresh "im" in
  destruct s as [im ? q ? ? ?];
  unfold validated, truthy_string in Hv; simpl in Hv;
  destruct im as [f|]; [|discriminate Hv]; simpl in Hv;
  destruct (String.eqb q EmptyString) eqn:Hq; [discriminate Hv|]; clear Hv.

(** Run a schedule on such a state. *)
Ltac run_schedule Hq :=
  unfold submitForm, settle;
  repeat (progress
            (simpl; unfold truthy_string, thrown, catch_block, json;
             rewrite ?Hq)).

(** X14. Two overlapping submissions send two requests, and the loading
    flag drops as soon as the first of them has its answer, while the
    other is still waiting for its own. *)
Theorem overlapping_submits_clear_loading_early (s : State)
    (net : Settled Response) :
  validated s = true ->
  exists (s' : State) (out : list Effect),
    run_pool ((0%nat, Invoke) :: (1%nat, Invoke) :: settle 0 net)
      [Entry; Entry] s
    = Some ([Returned; AwaitFetch], s', out)
    /\ isLoading s' = false
    /\ filter is_fetch out = [request s; request s].
Proof.
  intros Hv. open_validated s Hv f q Hq.
  destruct net as [[st [[| | | | | |]|]]|reason];
    run_schedule Hq; eexists; eexists;
    (split; [reflexivity|split; reflexivity]).
Qed.

Lemma overlapping_submits_clear_loading_early_witness :
  validated ready = true
  /\ exists (s' : State) (out : list Effect),
       run_pool ((0%nat, Invoke) :: (1%nat, Invoke)
                 :: settle 0 (Fulfilled a_cat))
         [Entry; Entry] ready
       = Some ([Returned; AwaitFetch], s', out)
       /\ isLoading s' = false
       /\ filter is_fetch out = [request ready; request ready].
Proof.
  split; [reflexivity|].
  apply (overlapping_submits_clear_loading_early ready (Fulfilled a_cat)).
  reflexivity.
Defined.

(** X15. With two submissions in flight the answer that arrives last is
    the one that stays: when the request sent first is answered after the
    one sent second, the page ends up showing what the first alone would
    have produced. *)
Theorem last_settled_submit_wins (s : State) (first second : Settled Response) :
  validated s = true ->
  exists (s' : State) (out : list Effect),
    run_pool ((0%nat, Invoke) :: (1%nat, Invoke)
              :: settle 1 second ++ settle 0 first)
      [Entry; Entry] s
    = Some ([Returned; Returned], s', out)
    /\ description s' = description (state_of (submitForm (Some first) s))
    /\ isLoading s' = false.
Proof.
  intros Hv. open_validated s Hv f q Hq.
  destruct first as [[st1 [[| | | | | |]|]]|reason1];
    destruct second as [[st2 [[| | | | | |]|]]|reason2];
    run_schedule Hq; eexists; eexists;
    (split; [reflexivity|split; reflexivity]).
Qed.

Lemma last_settled_submit_wins_witness :
  validated ready = true
  /\ exists (s' : State) (out : list Effect),
       run_pool ((0%nat, Invoke) :: (1%nat, Invoke)
                 :: settle 1 (Fulfilled a_cat)
                 ++ settle 0 (Rejected "NetworkError"))
         [Entry; Entry] ready
       = Some ([Returned; Returned], s', out)
       /\ description s'
          = description
              (state_of (submitForm (Some (Rejected "NetworkError")) ready))
       /\ isLoading s' = false.
Proof.
  split; [reflexivity|].
  apply (last_settled_submit_wins ready (Rejected "NetworkError")
           (Fulfilled a_cat)).
  reflexivity.
Defined.

End Overlap.

(** ** Selecting an image *)

Section Selection.

Variable b : Browser.
Variable mint : nat -> string.

(** The handler's result in each of the two ways a selection ends. *)
Lemma handleFileUpload_completed (file resized : File) (rest : list File)
    (w : World) :
  resizeImage b file = Some (Fulfilled resized) ->
  handleFileUpload b mint (Some (file :: rest)) w
  = {| page := set_imageUrl (Some (mint (S (length (urls w)))))
                 (set_image (Some resized) (page w));
       urls := urls w ++ [(mint (length (urls w)), file);
                          (mint (S (length (urls w))), resized)] |}.
Proof.
  intros Hr. unfold handleFileUpload. simpl. rewrite Hr.
  unfold handleFileUpload_resume, createObjectURL. simpl.
  rewrite length_app, Nat.add_1_r, <- app_assoc. reflexivity.
Qed.

Lemma handleFileUpload_hanging (file : File) (rest : list File) (w : World) :
  resizeImage b file = None ->
  handleFileUpload b mint (Some (file :: rest)) w
  = {| page := set_image (Some file) (page w);
       urls := urls w ++ [(mint (length (urls w)), file)] |}.
Proof.
  intros Hr. unfold handleFileUpload. simpl. rewrite Hr. reflexivity.
Qed.

Lemma resizeImage_not_rejected (file : File) (reason : string) :
  resizeImage b file <> Some (Rejected reason).
Proof.
  unfold resizeImage.
  destruct (prepared_canvas b file) as [c|]; [|discriminate].
  destruct (toBlob b c (type file)); discriminate.
Qed.

Lemma drop_is_upload_core (files : option (list File)) (w : World) :
  (handleDrop b mint files w).1
  = handleFileUpload b mint files
      {| page := set_isDragging false (page w); urls := urls w |}.
Proof.
  unfold handleDrop, handleFileUpload.
  destruct files as [[|file rest]|]; simpl; try reflexivity.
  destruct (resizeImage b file) as [[resized|reason]|]; reflexivity.
Qed.

(** X16. A selection that carries no file changes nothing: for the file
    picker neither a page variable nor the URL store; for a drop only
    [isDragging], which is reset, and the browser's default action is
    suppressed. *)
Theorem selection_without_file (files : option (list File)) (w : World) :
  files = None \/ files = Some [] ->
  handleFileUpload b mint files w = w
  /\ handleDrop b mint files w
     = ({| page := set_isDragging false (page w); urls := urls w |},
        [PreventDefault]).
Proof.
  intros [->| ->]; split; reflexivity.
Qed.

(** X17. When preparation of the first selected file resolves, the page
    holds the prepared file in [image] and in [imageUrl] a URL that was
    minted for that very file; the prepared file has the name and media
    type of the selected one; further selected files play no part; the
    other page variables are as before. *)
Theorem completed_selection (file resized : File) (rest : list File)
    (w : World) :
  resizeImage b file = Some (Fulfilled resized) ->
  let w' := handleFileUpload b mint (Some (file :: rest)) w in
  image (page w') = Some resized
  /\ (exists url : string,
        imageUrl (page w') = Some url /\ last (urls w') = Some (url, resized))
  /\ name resized = name file /\ type resized = type file
  /\ w' = handleFileUpload b mint (Some [file]) w
  /\ question (page w') = question (page w)
  /\ description (page w') = description (page w)
  /\ isLoading (page w') = isLoading (page w)
  /\ isDragging (page w') = isDragging (page w).
Proof.
  intros Hr w'. subst w'.
  rewrite (handleFileUpload_completed file resized rest w Hr).
  rewrite (handleFileUpload_completed file resized [] w Hr).
  destruct (resizeImage_fulfilled_inv b file resized Hr)
    as (_ & _ & _ & blob & _ & _ & _ & _ & _ & ->).
  simpl. split; [reflexivity|]. split.
  - eexists. split; [reflexivity|].
    rewrite last_app. reflexivity.
  - repeat split; reflexivity.
Qed.

(** X18. When preparation never settles (the file does not decode, or
    the canvas cannot be encoded), [image] keeps the raw selected file and
    the preview URL is not touched; a later submit with a question then
    passes validation and uploads that raw, unscaled file. *)
Theorem hanging_selection_uploads_raw_file (file : File) (rest : list File)
    (w : World) (q : string) (net : Promise Response) :
  resizeImage b file = None -> q <> EmptyString ->
  let w' := handleFileUpload b mint (Some (file :: rest)) w in
  image (page w') = Some file
  /\ imageUrl (page w') = imageUrl (page w)
  /\ filter is_fetch
       (effects_of (submitForm net (input_question q (page w'))))
     = [Fetch "/api/ask" "POST"
          [("image"%string, FilePart file);
           ("question"%string, TextPart q)]].
Proof.
  intros Hr Hq w'. subst w'.
  rewrite (handleFileUpload_hanging file rest w Hr). simpl.
  split; [reflexivity|]. split; [reflexivity|].
  set (s := input_question q (set_image (Some file) (page w))).
  assert (validated s = true) as Hv.
  { unfold validated, truthy_string; simpl.
    destruct (String.eqb_spec q EmptyString); [contradiction|reflexivity]. }
  destruct net as [net|].
  - destruct (throws net) eqn:Ht.
    + rewrite (submitForm_thrown net s Hv Ht). reflexivity.
    + destruct (throws_false_inv net Ht)
        as (response & result & d & -> & Hb & Hd).
      rewrite (submitForm_answered response result d s Hv Hb Hd).
      reflexivity.
  - rewrite (submitForm_pending s Hv). reflexivity.
Qed.

(** X19. Dropping files is selecting them with the file picker after
    [isDragging] has been reset, plus the suppressed default action. *)
Theorem drop_is_upload_after_drag_reset (files : option (list File))
    (w : World) :
  handleDrop b mint files w
  = (handleFileUpload b mint files
       {| page := set_isDragging false (page w); urls := urls w |},
     [PreventDefault]).
Proof.
  unfold handleDrop, handleFileUpload.
  destruct files as [[|file rest]|]; simpl; try reflexivity.
  destruct (resizeImage b file) as [[resized|reason]|]; reflexivity.
Qed.

(** X20. Selecting an image never writes [question], [description] or
    [isLoading]; the file picker leaves [isDragging] alone as well, and a
    drop always leaves it [false]. *)
Theorem selection_frame (files : option (list File)) (w : World) :
  let picked := handleFileUpload b mint files w in
  let dropped := (handleDrop b mint files w).1 in
  (question (page picked) = question (page w)
   /\ description (page picked) = description (page w)
   /\ isLoading (page picked) = isLoading (page w)
   /\ isDragging (page picked) = isDragging (page w))
  /\ (question (page dropped) = question (page w)
      /\ description (page dropped) = description (page w)
      /\ isLoading (page dropped) = isLoading (page w)
      /\ isDragging (page dropped) = false).
Proof.
  unfold handleDrop, handleFileUpload.
  destruct files as [[|file rest]|]; simpl; try (repeat split; reflexivity).
  destruct (resizeImage b file) as [[resized|reason]|];
    simpl; repeat split; reflexivity.
Qed.

Lemma gesture_urls_grow (w : World) (g : Gesture) :
  urls w `prefix_of` urls (gesture b mint w g).
Proof.
  destruct g as [| |files]; simpl; try reflexivity.
  rewrite drop_is_upload_core. unfold handleFileUpload.
  destruct files as [[|file rest]|]; simpl; try reflexivity.
  destruct (resizeImage b file) as [[resized|reason]|]; simpl.
  - unfold createObjectURL; simpl. rewrite <- app_assoc.
    apply prefix_app_r. reflexivity.
  - apply prefix_app_r. reflexivity.
  - apply prefix_app_r. reflexivity.
Qed.

(** X21. No blob URL is ever released: whatever is dragged, dropped or
    picked, in any order, every URL in the store before is still there
    afterwards, in place; one selection adds at most two. *)
Theorem url_store_only_grows (w : World) :
  (forall gestures : list Gesture,
     urls w `prefix_of` urls (fold_left (gesture b mint) gestures w))
  /\ (forall files : option (list File),
        exists added : UrlStore,
          urls (handleFileUpload b mint files w) = urls w ++ added
          /\ (length added <= 2)%nat).
Proof.
  split.
  - intros gestures. revert w.
    induction gestures as [|g gestures IH]; intros w; simpl.
    + reflexivity.
    + etransitivity; [apply gesture_urls_grow|apply IH].
  - intros files. unfold handleFileUpload.
    destruct files as [[|file rest]|]; simpl.
    + exists []. rewrite app_nil_r. split; [reflexivity|simpl; lia].
    + destruct (resizeImage b file) as [[resized|reason]|]; simpl.
      * unfold createObjectURL; simpl. rewrite <- app_assoc.
        eexists. split; [reflexivity|simpl; lia].
      * eexists. split; [reflexivity|simpl; lia].
      * eexists. split; [reflexivity|simpl; lia].
    + exists []. rewrite app_nil_r. split; [reflexivity|simpl; lia].
Qed.

(** X22. Selections are not serialised: when a second file is selected
    while the first is still being prepared and the first preparation
    finishes last, the page ends up holding and previewing the first
    file's result although the second was selected later. *)
Theorem stale_preparation_overwrites (first second : File)
    (first_resized second_resized : File) (w : World) :
  let w1 := (handleFileUpload_begin mint (Some [first]) w).2 in
  let w2 := (handleFileUpload_begin mint (Some [second]) w1).2 in
  let w3 := handleFileUpload_resume mint second_resized w2 in
  let w4 := handleFileUpload_resume mint first_resized w3 in
  image (page w2) = Some second
  /\ image (page w3) = Some second_resized
  /\ image (page w4) = Some first_resized
  /\ exists url : string,
       imageUrl (page w4) = Some url
       /\ last (urls w4) = Some (url, first_resized).
Proof.
  simpl. split; [reflexivity|]. split; [reflexivity|].
  split; [reflexivity|].
  eexists. split; [reflexivity|]. apply last_snoc.
Qed.

(** X23. From selection to request: when preparation resolves and a
    question is typed, the request carries the prepared file, which has
    the selected file's name and media type and was encoded from a canvas
    no larger than 800 by 800, together with the question as typed. *)
Theorem prepared_file_is_what_is_sent (file resized : File)
    (rest : list File) (w : World) (q : string) (net : Promise Response) :
  resizeImage b file = Some (Fulfilled resized) -> q <> EmptyString ->
  let w' := handleFileUpload b mint (Some (file :: rest)) w in
  filter is_fetch (effects_of (submitForm net (input_question q (page w'))))
  = [Fetch "/api/ask" "POST"
       [("image"%string, FilePart resized);
        ("question"%string, TextPart q)]]
  /\ name resized = name file /\ type resized = type file
  /\ exists (c : Canvas) (blob : Blob),
       canvas_width c <= 800 /\ canvas_height c <= 800
       /\ toBlob b c (type file) = Some blob
       /\ bits resized = blob_bits blob.
Proof.
  intros Hr Hq w'. subst w'.
  rewrite (handleFileUpload_completed file resized rest w Hr). simpl.
  split; [|].
  - set (s := input_question q _).
    assert (validated s = true) as Hv.
    { unfold validated, truthy_string; simpl.
      destruct (String.eqb_spec q EmptyString); [contradiction|reflexivity]. }
    destruct net as [net|].
    + destruct (throws net) eqn:Ht.
      * rewrite (submitForm_thrown net s Hv Ht). reflexivity.
      * destruct (throws_false_inv net Ht)
          as (response & result & d & -> & Hb & Hd).
        rewrite (submitForm_answered response result d s Hv Hb Hd).
        reflexivity.
    + rewrite (submitForm_pending s Hv). reflexivity.
  - destruct (resizeImage_fulfilled_inv b file resized Hr)
      as (w0 & h0 & c & blob & _ & _ & Hsz & _ & Hblob & ->).
    split; [reflexivity|]. split; [reflexivity|].
    exists c, blob. pose proof (target_size_le w0 h0) as Hle.
    rewrite <- Hsz in Hle. simpl in Hle.
    destruct Hle as [Hcw Hch].
    split; [exact Hcw|]. split; [exact Hch|].
    split; [exact Hblob|reflexivity].
Qed.

(** X24. The highlight of the upload area follows the last gesture: after
    any sequence of drag-over, drag-leave and drop events [isDragging] is
    set exactly when the last of them was a drag-over. *)
Theorem dragging_follows_last_gesture (gestures : list Gesture)
    (g : Gesture) (w : World) :
  isDragging (page (fold_left (gesture b mint) (gestures ++ [g]) w))
  = is_drag_over g.
Proof.
  rewrite fold_left_app. simpl.
  set (w' := fold_left (gesture b mint) gestures w).
  destruct g as [| |files]; simpl; try reflexivity.
  rewrite drop_is_upload_core. unfold handleFileUpload.
  destruct files as [[|file rest]|]; simpl; try reflexivity.
  destruct (resizeImage b file) as [[resized|reason]|]; reflexivity.
Qed.

End Selection.

(** The selection theorems at concrete inputs. *)

Lemma selection_without_file_witness :
  handleFileUpload test_browser blob_url (Some []) fresh_world = fresh_world
  /\ handleDrop test_browser blob_url None
       {| page := set_isDragging true ready; urls := [] |}
     = ({| page := ready; urls := [] |}, [PreventDefault]).
Proof.
  split.
  - apply (selection_without_file test_browser blob_url (Some [])
             fresh_world).
    right. reflexivity.
  - apply (selection_without_file test_browser blob_url None
             {| page := set_isDragging true ready; urls := [] |}).
    left. reflexivity.
Defined.

Lemma completed_selection_witness :
  resizeImage test_browser cat_png = Some (Fulfilled cat_png_resized)
  /\ image (page (handleFileUpload test_browser blob_url
                    (Some [cat_png; notes_txt]) fresh_world))
     = Some cat_png_resized
  /\ imageUrl (page (handleFileUpload test_browser blob_url
                       (Some [cat_png; notes_txt]) fresh_world))
     = Some "blob:1"%string.
Proof.
  split; [reflexivity|].
  split.
  - apply (completed_selection test_browser blob_url cat_png
             cat_png_resized [notes_txt] fresh_world).
    reflexivity.
  - reflexivity.
Defined.

Lemma hanging_selection_uploads_raw_file_witness :
  resizeImage test_browser notes_txt = None
  /\ "Is it readable?"%string <> EmptyString
  /\ image (page (handleFileUpload test_browser blob_url
                    (Some [notes_txt]) fresh_world))
     = Some notes_txt
  /\ filter is_fetch
       (effects_of
          (submitForm None
             (input_question "Is it readable?"
                (page (handleFileUpload test_browser blob_url
                         (Some [notes_txt]) fresh_world)))))
     = [Fetch "/api/ask" "POST"
          [("image"%string, FilePart notes_txt);
           ("question"%string, TextPart "Is it readable?")]].
Proof.
  split; [reflexivity|]. split; [discriminate|].
  destruct (hanging_selection_uploads_raw_file test_browser blob_url
              notes_txt [] fresh_world "Is it readable?" None)
    as (Himage & _ & Hsent).
  - reflexivity.
  - discriminate.
  - split; [exact Himage|exact Hsent].
Defined.

Lemma prepared_file_is_what_is_sent_witness :
  resizeImage test_browser cat_png = Some (Fulfilled cat_png_resized)
  /\ "What is this?"%string <> EmptyString
  /\ filter is_fetch
       (effects_of
          (submitForm (Some (Fulfilled a_cat))
             (input_question "What is this?"
                (page (handleFileUpload test_browser blob_url
                         (Some [cat_png]) fresh_world)))))
     = [Fetch "/api/ask" "POST"
          [("image"%string, FilePart cat_png_resized);
           ("question"%string, TextPart "What is this?")]].
Proof.
  split; [reflexivity|]. split; [discriminate|].
  destruct (prepared_file_is_what_is_sent test_browser blob_url
              cat_png cat_png_resized [] fresh_world "What is this?"
              (Some (Fulfilled a_cat)))
    as (Hsent & _).
  - reflexivity.
  - discriminate.
  - exact Hsent.
Defined.

Example key_enter : handleKeyDown "Enter" = [PreventDefault; ClickFileInput].
Proof. reflexivity. Qed.

Example key_other : handleKeyDown "a" = [].
Proof. reflexivity. Qed.
